(** * Request width (seat) estimation of the API Priority and Fairness filter

    A shallow embedding of package [request]
    (staging/src/k8s.io/apiserver/pkg/util/flowcontrol/request):

    - the declarations of the package: [Width], [minimumSeats],
      [maximumSeats], [objectCountGetterFunc], [WidthEstimatorFunc],
      [NewWidthEstimator] and the dispatcher [widthEstimator.estimate];
    - list_width.go: [listWidthEstimator.estimate], [key] and
      [shouldListFromStorage];
    - mutating_width.go: [mutatingWidthEstimator.estimate].

    Go integers ([uint], [int], [int64]) are modelled as [Z]; strings as
    [string]; [url.Values] (a [map[string][]string]) as a [gmap]; the
    [klog.ErrorS] calls as entries appended to a log that every estimator
    returns next to its [Width]. *)

From Stdlib Require Import ZArith Lia Ascii String.
From stdpp Require Import base decidable option list strings gmap.

Local Open Scope string_scope.
Local Open Scope list_scope.
Local Open Scope Z_scope.

(** ** Data model *)

(** [const ( minimumSeats = 1; maximumSeats = 10 )] *)
Definition minimumSeats : Z := 1.
Definition maximumSeats : Z := 10.

(** [type Width struct { Seats uint }] *)
Record Width : Type := mkWidth { Seats : Z }.

(** The fields of [apirequest.RequestInfo] that the package reads. *)
Record RequestInfo : Type := mkRequestInfo {
  Verb : string;
  APIGroup : string;
  Resource : string
}.

(** [url.Values], the parsed query of the request. *)
Abbreviation Values := (gmap string (list string)).

(** [metav1.ResourceVersionMatch] is a string type. *)
Definition ResourceVersionMatchNotOlderThan : string := "NotOlderThan".
Definition ResourceVersionMatchExact : string := "Exact".

(** The fields of [metav1.ListOptions] that the package reads;
    [Limit] is an [int64]. *)
Record ListOptions : Type := mkListOptions {
  ResourceVersion : string;
  ResourceVersionMatch : string;
  Limit : Z;
  Continue : string
}.

(** A Go [error], by its message. *)
Definition error : Type := string.

(** An [*http.Request]: the [RequestInfo] stored in its context (if any),
    the result of [r.URL.Query()], and [r.RequestURI]. *)
Record Request : Type := mkRequest {
  Context : option RequestInfo;
  URL_Query : Values;
  RequestURI : string
}.

(** [apirequest.RequestInfoFrom(ctx)] returns the info and an [ok] flag. *)
Definition RequestInfoFrom (ctx : option RequestInfo) : option RequestInfo := ctx.

(** [type objectCountGetterFunc func(string) int64] and its [Get] method. *)
Definition objectCountGetterFunc : Type := string -> Z.
Definition objectCountGetterFunc_Get (f : objectCountGetterFunc) (key : string) : Z :=
  f key.

(** [type watchCountGetterFunc func(ri *apirequest.RequestInfo) int]; the
    declaration is not among the sources, the tests build one from a closure
    of this type and [mutatingWidthEstimator.estimate] calls its [Get]. *)
Definition watchCountGetterFunc : Type := RequestInfo -> Z.
Definition watchCountGetterFunc_Get (f : watchCountGetterFunc) (ri : RequestInfo) : Z :=
  f ri.

(** ** Logging

    [klog.ErrorS(err, msg, keysAndValues...)] is the only effect of the
    package.  An estimator returns its value together with the entries it
    logged, oldest first. *)
Record LogEntry : Type := mkLogEntry {
  log_err : error;
  log_msg : string;
  log_keysAndValues : list (string * string)
}.

Definition Logged (A : Type) : Type := (A * list LogEntry)%type.

Definition ret {A : Type} (a : A) : Logged A := (a, []).

Definition bind {A B : Type} (m : Logged A) (k : A -> Logged B) : Logged B :=
  let '(a, l1) := m in let '(b, l2) := k a in (b, l1 ++ l2).

Definition klog_ErrorS (err : error) (msg : string) (kv : list (string * string))
  : Logged unit :=
  (tt, [mkLogEntry err msg kv]).

Notation "m ;;; k" := (bind m (fun _ => k))
  (at level 100, right associativity).

(** The value and the log of a finished call. *)
Definition result {A : Type} (m : Logged A) : A := fst m.
Definition logged {A : Type} (m : Logged A) : list LogEntry := snd m.

(** [type WidthEstimatorFunc func(r *http.Request) Width] and its
    [EstimateWidth] method. *)
Definition WidthEstimatorFunc : Type := Request -> Logged Width.
Definition EstimateWidth (e : WidthEstimatorFunc) (r : Request) : Logged Width := e r.

(** ** Arithmetic of the seat formula *)

(** [math.Ceil(float64(x) / float64(d))] as the integer it denotes: the
    least integer not below [x / d].  For [|x| < 2^53] the two float64
    operations introduce no error that crosses an integer, so this is the
    exact value; beyond that range the float64 result may differ from it by
    rounding, but both lie far above [maximumSeats] or both far below zero:
    the clamped seats are the same in the first case, and in the second
    the conversion to [uint] is left to the platform either way. *)
Definition Ceil_div (x d : Z) : Z := - ((- x) / d).

(** The range of Go's 64-bit [uint] and [int64]. *)
Definition is_uint (x : Z) : Prop := 0 <= x < 2 ^ 64.
Definition is_int64 (x : Z) : Prop := - 2 ^ 63 <= x < 2 ^ 63.

#[global] Instance is_uint_dec x : Decision (is_uint x).
Proof. unfold is_uint. apply _. Defined.
#[global] Instance is_int64_dec x : Decision (is_int64 x).
Proof. unfold is_int64. apply _. Defined.

(** [schema.GroupResource] *)
Record GroupResource : Type := mkGroupResource {
  Group : string;
  gr_Resource : string
}.

(** Modelled from the spec: [schema.GroupResource.String] lives in
    k8s.io/apimachinery/pkg/runtime/schema, which is not among the sources.
    The key is the resource name alone for the empty group and the resource
    name, a dot and the group otherwise; width_test.go fixes the second
    form: group ["foo.bar"] and resource ["resource"] are counted under
    ["resource.foo.bar"]. *)
Definition GroupResource_String (gr : GroupResource) : string :=
  if decide (String.length (Group gr) = 0%nat) then gr_Resource gr
  else gr_Resource gr +:+ "." +:+ Group gr.

(** [func key(requestInfo *apirequest.RequestInfo) string] *)
Definition key (requestInfo : RequestInfo) : string :=
  let groupResource :=
    {| Group := APIGroup requestInfo; gr_Resource := Resource requestInfo |} in
  GroupResource_String groupResource.

(** ** The surroundings

    What the package takes from the rest of the API server and from the
    platform it runs on. *)
Class Surroundings : Type := mkSurroundings {
  (** [utilfeature.DefaultFeatureGate.Enabled(features.APIListChunking)] *)
  APIListChunking : bool;
  (** [metav1.Convert_url_Values_To_v1_ListOptions(&query, &listOptions, nil)]
      on a zero [ListOptions]: the error, or the options it filled in. *)
  Convert_url_Values_To_v1_ListOptions : Values -> error + ListOptions;
  (** Go leaves the conversion of a float64 to [uint] implementation
      dependent when the value cannot be represented; this is what the
      platform yields then. *)
  uint_unrepresentable : Z -> Z
}.

(** ** The estimators *)

Record listWidthEstimator : Type := mkListWidthEstimator {
  list_countFn : objectCountGetterFunc
}.

Record mutatingWidthEstimator : Type := mkMutatingWidthEstimator {
  mutating_countFn : watchCountGetterFunc
}.

Record widthEstimator : Type := mkWidthEstimator {
  (* listWidthEstimator calculates the width of list request(s) *)
  widthEstimator_listWidthEstimator : WidthEstimatorFunc
}.

Section Estimators.

Context {env : Surroundings}.

(** [uint(f)] for an integral float64 [f]. *)
Definition uint_of_float64 (f : Z) : Z :=
  if decide (is_uint f) then f else uint_unrepresentable f.

(** [func shouldListFromStorage(query url.Values, opts *metav1.ListOptions) bool] *)
Definition shouldListFromStorage (query : Values) (opts : ListOptions) : bool :=
  let resourceVersion := ResourceVersion opts in
  let pagingEnabled := APIListChunking in
  let hasContinuation :=
    pagingEnabled && bool_decide (0 < String.length (Continue opts))%nat in
  let hasLimit :=
    pagingEnabled && bool_decide (Limit opts > 0)
    && bool_decide (resourceVersion <> "0") in
  bool_decide (resourceVersion = "") || hasContinuation || hasLimit
  || bool_decide (ResourceVersionMatch opts = ResourceVersionMatchExact).

(** The tail shared by both estimators:
    [seats := uint(math.Ceil(float64(n) / float64(100)))] followed by the
    two clamping [if]s. *)
Definition seats_for (n : Z) : Z :=
  let seats := uint_of_float64 (Ceil_div n 100) in
  let seats := if decide (seats < minimumSeats) then minimumSeats else seats in
  let seats := if decide (seats > maximumSeats) then maximumSeats else seats in
  seats.

(** [func (e *listWidthEstimator) estimate(r *http.Request) Width] *)
Definition listWidthEstimator_estimate (e : listWidthEstimator) (r : Request)
  : Logged Width :=
  match RequestInfoFrom (Context r) with
  | None =>
      (* no RequestInfo should never happen *)
      ret {| Seats := maximumSeats |}
  | Some requestInfo =>
      let query := URL_Query r in
      match Convert_url_Values_To_v1_ListOptions query with
      | inl err =>
          klog_ErrorS err "Failed to convert options while calculating request width" [] ;;;
          ret {| Seats := minimumSeats |}
      | inr listOptions =>
          let count := objectCountGetterFunc_Get (list_countFn e) (key requestInfo) in
          let isListFromCache := negb (shouldListFromStorage query listOptions) in
          if (bool_decide (Limit listOptions = 0) || isListFromCache)
             && bool_decide (count = 0)
          then
            (* object count is not known: limit is zero, or listing from cache *)
            ret {| Seats := maximumSeats |}
          else
            let estimatedObjectsToBeProcessed :=
              if isListFromCache then
                (* if we are here, count is known *)
                count
              else
                let estimatedObjectsToBeProcessed := Limit listOptions in
                if decide (estimatedObjectsToBeProcessed = 0) then
                  (* limit has not been specified, fall back to count *)
                  count
                else estimatedObjectsToBeProcessed in
            ret {| Seats := seats_for estimatedObjectsToBeProcessed |}
      end
  end.

(** [func newListWidthEstimator(countFn objectCountGetterFunc) WidthEstimatorFunc] *)
Definition newListWidthEstimator (countFn : objectCountGetterFunc)
  : WidthEstimatorFunc :=
  let estimator := {| list_countFn := countFn |} in
  listWidthEstimator_estimate estimator.

(** [func (e *mutatingWidthEstimator) estimate(r *http.Request) Width] *)
Definition mutatingWidthEstimator_estimate (e : mutatingWidthEstimator) (r : Request)
  : Logged Width :=
  match RequestInfoFrom (Context r) with
  | None => ret {| Seats := maximumSeats |}
  | Some requestInfo =>
      let watchCount := watchCountGetterFunc_Get (mutating_countFn e) requestInfo in
      ret {| Seats := seats_for watchCount |}
  end.

(** [func newMutatingWidthEstimator(countFn watchCountGetterFunc) WidthEstimatorFunc] *)
Definition newMutatingWidthEstimator (countFn : watchCountGetterFunc)
  : WidthEstimatorFunc :=
  let estimator := {| mutating_countFn := countFn |} in
  mutatingWidthEstimator_estimate estimator.

(** [func (e *widthEstimator) estimate(r *http.Request) Width] *)
Definition widthEstimator_estimate (e : widthEstimator) (r : Request)
  : Logged Width :=
  match RequestInfoFrom (Context r) with
  | None =>
      klog_ErrorS "no RequestInfo found in context"
        "Failed to estimate width for the request" [("URI", RequestURI r)] ;;;
      (* no RequestInfo should never happen *)
      ret {| Seats := maximumSeats |}
  | Some requestInfo =>
      if decide (Verb requestInfo = "list") then
        EstimateWidth (widthEstimator_listWidthEstimator e) r
      else
        ret {| Seats := minimumSeats |}
  end.

(** [func NewWidthEstimator(countFn objectCountGetterFunc) WidthEstimatorFunc] *)
Definition NewWidthEstimator (countFn : objectCountGetterFunc) : WidthEstimatorFunc :=
  let estimator :=
    {| widthEstimator_listWidthEstimator := newListWidthEstimator countFn |} in
  widthEstimator_estimate estimator.

End Estimators.

(** ** The specification's formulas

    These follow the words of the specification, not the code; the
    properties below compare them with the estimators. *)

(** "clamp into [minimumSeats, maximumSeats]" *)
Definition clamp_seats (n : Z) : Z := Z.max minimumSeats (Z.min maximumSeats n).

(** "seats = ceil(n / 100), then clamp" *)
Definition spec_seats (n : Z) : Z := clamp_seats (Ceil_div n 100).

(** "if fromCache: estimatedObjects = count; else: estimatedObjects =
    options.limit if limit > 0, otherwise fall back to count" *)
Definition spec_estimatedObjects (fromCache : bool) (limit count : Z) : Z :=
  if fromCache then count
  else if decide (limit > 0) then limit else count.

(** The four conditions of [willServeFromStorage(options, pagingEnabled)]. *)
Definition spec_willServeFromStorage (options : ListOptions) (pagingEnabled : bool)
  : Prop :=
  ResourceVersion options = ""
  \/ (pagingEnabled = true /\ Continue options <> "")
  \/ (pagingEnabled = true /\ Limit options > 0 /\ ResourceVersion options <> "0")
  \/ ResourceVersionMatch options = ResourceVersionMatchExact.

(** "create, update, patch, or delete" *)
Definition mutating_verbs : list string := ["create"; "update"; "patch"; "delete"].

(** The number of occurrences of a character in a string. *)
Fixpoint count_char (c : ascii) (s : string) : nat :=
  match s with
  | EmptyString => 0
  | String a s' => (if decide (a = c) then 1 else 0) + count_char c s'
  end.

(** ** Fixtures: the surroundings used by width_test.go

    The tests run the estimator on real requests, with the default feature
    gates, against counts kept in a Go map.  The definitions below provide
    the same surroundings for closed examples. *)

(** [counts[key]] on a [map[string]int64]: a missing key reads as zero. *)
Definition countsFn (counts : gmap string Z) : objectCountGetterFunc :=
  fun key => default 0 (counts !! key).

(** [watchCountsFn] of the tests ignores its argument. *)
Definition watchCountsFn (watchCount : Z) : watchCountGetterFunc :=
  fun _ => watchCount.

(** The decimal digits of [strconv.ParseInt(s, 10, 64)]. *)
Fixpoint digits_value (acc : Z) (s : string) : option Z :=
  match s with
  | EmptyString => Some acc
  | String c s' =>
      let n := Z.of_nat (Ascii.nat_of_ascii c) - 48 in
      if decide (0 <= n <= 9) then digits_value (10 * acc + n) s' else None
  end.

(** [strconv.ParseInt(s, 10, 64)]: an optional sign, at least one digit,
    and a value in the range of [int64]. *)
Definition ParseInt64 (s : string) : option Z :=
  let signed :=
    match s with
    | EmptyString => None
    | String c s' =>
        if decide (c = "-"%char) then
          if decide (s' = "") then None else Z.opp <$> digits_value 0 s'
        else if decide (c = "+"%char) then
          if decide (s' = "") then None else digits_value 0 s'
        else digits_value 0 s
    end in
  match signed with
  | Some n => if decide (is_int64 n) then Some n else None
  | None => None
  end.

(** [values[key][0]], when the key has a value. *)
Definition first_value (query : Values) (k : string) : option string :=
  match query !! k with
  | Some (v :: _) => Some v
  | _ => None
  end.

(** Modelled from the spec: the query parser
    [metav1.Convert_url_Values_To_v1_ListOptions] is generated code of
    k8s.io/apimachinery and not among the sources.  This stand-in fills the
    four fields the estimator reads from the parameters [resourceVersion],
    [resourceVersionMatch], [limit] and [continue], and fails when [limit]
    is not a decimal [int64]. *)
Definition convert_query (query : Values) : error + ListOptions :=
  let field k := default "" (first_value query k) in
  let options n :=
    {| ResourceVersion := field "resourceVersion";
       ResourceVersionMatch := field "resourceVersionMatch";
       Limit := n;
       Continue := field "continue" |} in
  match first_value query "limit" with
  | None => inr (options 0)
  | Some v =>
      match ParseInt64 v with
      | Some n => inr (options n)
      | None => inl ("strconv.ParseInt: parsing " +:+ v +:+ ": invalid syntax")
      end
  end.

(** Two platforms for the unrepresentable conversions: one reinterprets the
    integer modulo [2^64], the other saturates at the ends of the range. *)
Definition uint_wrap (f : Z) : Z := f mod 2 ^ 64.
Definition uint_saturate (f : Z) : Z := if decide (f < 0) then 0 else 2 ^ 64 - 1.

(** The estimator as the tests build it: paging enabled (the default of
    the [APIListChunking] gate). *)
Definition test_env : Surroundings :=
  {| APIListChunking := true;
     Convert_url_Values_To_v1_ListOptions := convert_query;
     uint_unrepresentable := uint_wrap |}.

Definition test_estimator (counts : gmap string Z) : WidthEstimatorFunc :=
  NewWidthEstimator (env := test_env) (countsFn counts).

Definition test_request (ri : option RequestInfo) (query : list (string * list string))
  : Request :=
  {| Context := ri; URL_Query := list_to_map query; RequestURI := "/apis/v1/foos/1" |}.

Definition foo_list : RequestInfo :=
  {| Verb := "list"; APIGroup := "foo.bar"; Resource := "resource" |}.

Definition foo_counts (n : Z) : gmap string Z := {[ "resource.foo.bar" := n ]}.

Definition seats_of (counts : gmap string Z) (r : Request) : Z :=
  Seats (result (EstimateWidth (test_estimator counts) r)).

(** The same surroundings with the [APIListChunking] gate switched off,
    and on a platform that saturates. *)
Definition no_paging_env : Surroundings :=
  {| APIListChunking := false;
     Convert_url_Values_To_v1_ListOptions := convert_query;
     uint_unrepresentable := uint_saturate |}.

(** The surroundings of the tests with nothing but the [APIListChunking]
    gate switched off. *)
Definition gate_off_env : Surroundings :=
  {| APIListChunking := false;
     Convert_url_Values_To_v1_ListOptions := convert_query;
     uint_unrepresentable := uint_wrap |}.

(** The descriptor of the mutating requests in the second version of
    width_test.go. *)
Definition foo_mutating (verb : string) : RequestInfo :=
  {| Verb := verb; APIGroup := "foo.bar"; Resource := "resource" |}.

Definition test_mutating_estimator (watchCount : Z) : mutatingWidthEstimator :=
  {| mutating_countFn := watchCountsFn watchCount |}.

(** The table of [TestWidthEstimator] (first version of width_test.go). *)
Example test_no_RequestInfo :
  seats_of ∅ (test_request None []) = 10.
Proof. vm_compute. reflexivity. Qed.

Example test_verb_is_not_list :
  seats_of ∅ (test_request (Some (mkRequestInfo "get" "" "")) []) = 1.
Proof. vm_compute. reflexivity. Qed.

Example test_resource_version_not_set :
  seats_of (foo_counts 799) (test_request (Some foo_list) [("limit", ["499"])]) = 5.
Proof. vm_compute. reflexivity. Qed.

Example test_continuation_is_set :
  seats_of (foo_counts 799)
    (test_request (Some foo_list)
       [("continue", ["token"]); ("limit", ["499"]); ("resourceVersion", ["1"])]) = 5.
Proof. vm_compute. reflexivity. Qed.

Example test_has_limit :
  seats_of (foo_counts 799)
    (test_request (Some foo_list) [("limit", ["499"]); ("resourceVersion", ["1"])]) = 5.
Proof. vm_compute. reflexivity. Qed.

Example test_resource_version_is_zero :
  seats_of (foo_counts 799)
    (test_request (Some foo_list) [("resourceVersion", ["0"])]) = 8.
Proof. vm_compute. reflexivity. Qed.

Example test_no_query_parameters_count_known :
  seats_of (foo_counts 799) (test_request (Some foo_list) []) = 8.
Proof. vm_compute. reflexivity. Qed.

Example test_no_query_parameters_count_not_known :
  seats_of ∅ (test_request (Some foo_list) []) = 10.
Proof. vm_compute. reflexivity. Qed.

Example test_resource_version_match_is_Exact :
  seats_of (foo_counts 799)
    (test_request (Some foo_list)
       [("resourceVersion", ["foo"]); ("resourceVersionMatch", ["Exact"]);
        ("limit", ["499"])]) = 5.
Proof. vm_compute. reflexivity. Qed.

Example test_resource_version_match_is_NotOlderThan :
  seats_of (foo_counts 799)
    (test_request (Some foo_list)
       [("resourceVersion", ["foo"]); ("resourceVersionMatch", ["NotOlderThan"])]) = 8.
Proof. vm_compute. reflexivity. Qed.

Example test_maximum_is_capped :
  seats_of (foo_counts 1999)
    (test_request (Some foo_list) [("resourceVersion", ["foo"])]) = 10.
Proof. vm_compute. reflexivity. Qed.

Example test_list_from_cache_count_not_known :
  seats_of ∅
    (test_request (Some foo_list) [("resourceVersion", ["0"]); ("limit", ["799"])]) = 10.
Proof. vm_compute. reflexivity. Qed.

(** ** Properties *)

(** *** The ceiling *)

Lemma Ceil_div_bounds (x d : Z) :
  0 < d -> d * (Ceil_div x d - 1) < x <= d * Ceil_div x d.
Proof.
  intros Hd. unfold Ceil_div.
  pose proof (Z.div_mod (- x) d ltac:(lia)) as Hdm.
  pose proof (Z.mod_pos_bound (- x) d Hd) as Hm.
  nia.
Qed.

Lemma Ceil_div_unique (x d n : Z) :
  0 < d -> d * (n - 1) < x <= d * n -> Ceil_div x d = n.
Proof.
  intros Hd Hn. pose proof (Ceil_div_bounds x d Hd). nia.
Qed.

Example Ceil_div_299 : Ceil_div 299 100 = 3 /\ Ceil_div 300 100 = 3 /\ Ceil_div 301 100 = 4.
Proof. repeat split. Qed.

Lemma Ceil_div_mono (x y d : Z) :
  0 < d -> x <= y -> Ceil_div x d <= Ceil_div y d.
Proof.
  intros Hd Hxy.
  pose proof (Ceil_div_bounds x d Hd). pose proof (Ceil_div_bounds y d Hd).
  nia.
Qed.

Lemma Ceil_div_int64_is_uint (x : Z) :
  - 100 < x -> is_int64 x -> is_uint (Ceil_div x 100).
Proof.
  unfold is_int64, is_uint. intros Hx Hr.
  pose proof (Ceil_div_bounds x 100 ltac:(lia)). lia.
Qed.

Lemma clamp_seats_mono (m n : Z) : m <= n -> clamp_seats m <= clamp_seats n.
Proof. unfold clamp_seats. lia. Qed.

Section Properties.

Context {env : Surroundings}.

(** *** The clamped seat count *)

(** Whatever the conversion yields, the two [if]s bring it into range. *)
Lemma seats_for_range (n : Z) : minimumSeats <= seats_for n <= maximumSeats.
Proof.
  unfold seats_for, minimumSeats, maximumSeats.
  repeat case_decide; lia.
Qed.

(** Where the ceiling is representable the code computes the spec's formula. *)
Lemma seats_for_spec (n : Z) :
  is_uint (Ceil_div n 100) -> seats_for n = spec_seats n.
Proof.
  intros Hu. unfold seats_for, uint_of_float64, spec_seats, clamp_seats.
  destruct (decide (is_uint (Ceil_div n 100))) as [_|Hn]; [|contradiction].
  unfold minimumSeats, maximumSeats. repeat case_decide; lia.
Qed.

Lemma seats_for_int64 (n : Z) :
  - 100 < n -> is_int64 n -> seats_for n = spec_seats n.
Proof. intros H1 H2. apply seats_for_spec, Ceil_div_int64_is_uint; assumption. Qed.

Lemma spec_seats_mono (m n : Z) : m <= n -> spec_seats m <= spec_seats n.
Proof.
  intros H. unfold spec_seats. apply clamp_seats_mono, Ceil_div_mono; lia.
Qed.

(** *** The serving decision *)

Lemma shouldListFromStorage_spec (query : Values) (opts : ListOptions) :
  shouldListFromStorage query opts = true
  <-> spec_willServeFromStorage opts APIListChunking.
Proof.
  unfold shouldListFromStorage, spec_willServeFromStorage.
  rewrite !orb_true_iff, !andb_true_iff, !bool_decide_eq_true.
  assert (Hlen : (0 < String.length (Continue opts))%nat <-> Continue opts <> "").
  { destruct (Continue opts); simpl; split; intros H; try lia; congruence. }
  rewrite Hlen. tauto.
Qed.

(** The decision reads the options only, never the raw query. *)
Lemma shouldListFromStorage_query (q1 q2 : Values) (opts : ListOptions) :
  shouldListFromStorage q1 opts = shouldListFromStorage q2 opts.
Proof. reflexivity. Qed.

(** *** The dispatcher *)

Lemma dispatch_list (countFn : objectCountGetterFunc) (r : Request) (ri : RequestInfo) :
  Context r = Some ri -> Verb ri = "list" ->
  EstimateWidth (NewWidthEstimator countFn) r
  = listWidthEstimator_estimate {| list_countFn := countFn |} r.
Proof.
  intros Hctx Hverb.
  unfold EstimateWidth, NewWidthEstimator, widthEstimator_estimate.
  unfold RequestInfoFrom. rewrite Hctx. rewrite decide_True by assumption.
  reflexivity.
Qed.

Lemma dispatch_other (countFn : objectCountGetterFunc) (r : Request) (ri : RequestInfo) :
  Context r = Some ri -> Verb ri <> "list" ->
  EstimateWidth (NewWidthEstimator countFn) r = ret {| Seats := minimumSeats |}.
Proof.
  intros Hctx Hverb.
  unfold EstimateWidth, NewWidthEstimator, widthEstimator_estimate.
  unfold RequestInfoFrom. rewrite Hctx. rewrite decide_False by assumption.
  reflexivity.
Qed.

(** *** The list estimator, branch by branch *)

Lemma list_estimate_parsed (e : listWidthEstimator) (r : Request)
    (ri : RequestInfo) (opts : ListOptions) :
  Context r = Some ri ->
  Convert_url_Values_To_v1_ListOptions (URL_Query r) = inr opts ->
  let count := list_countFn e (key ri) in
  let fromCache := negb (shouldListFromStorage (URL_Query r) opts) in
  listWidthEstimator_estimate e r =
    if (bool_decide (Limit opts = 0) || fromCache) && bool_decide (count = 0)
    then ret {| Seats := maximumSeats |}
    else ret {| Seats := seats_for
                  (if fromCache then count
                   else if decide (Limit opts = 0) then count else Limit opts) |}.
Proof.
  intros Hctx Hconv. unfold listWidthEstimator_estimate, RequestInfoFrom.
  rewrite Hctx, Hconv. reflexivity.
Qed.

Lemma list_estimate_range (e : listWidthEstimator) (r : Request) :
  minimumSeats <= Seats (result (listWidthEstimator_estimate e r)) <= maximumSeats.
Proof.
  unfold listWidthEstimator_estimate, RequestInfoFrom.
  destruct (Context r) as [ri|]; [|simpl; unfold minimumSeats, maximumSeats; lia].
  destruct (Convert_url_Values_To_v1_ListOptions (URL_Query r)) as [err|opts];
    [simpl; unfold minimumSeats, maximumSeats; lia|].
  match goal with |- context [if ?b then _ else _] => destruct b end;
    [simpl; unfold minimumSeats, maximumSeats; lia|].
  simpl. apply seats_for_range.
Qed.

Lemma mutating_estimate_range (e : mutatingWidthEstimator) (r : Request) :
  minimumSeats <= Seats (result (mutatingWidthEstimator_estimate e r)) <= maximumSeats.
Proof.
  unfold mutatingWidthEstimator_estimate, RequestInfoFrom.
  destruct (Context r) as [ri|]; simpl.
  - apply seats_for_range.
  - unfold minimumSeats, maximumSeats; lia.
Qed.

(** C1. Every estimator returns a [Width] whose [Seats] lies between
    [minimumSeats] = 1 and [maximumSeats] = 10: the public entry point
    [EstimateWidth] for any count source, the list estimator and the
    mutating estimator, for every request and on every platform. *)
Theorem Seats_range (r : Request) :
  (forall countFn : objectCountGetterFunc,
      1 <= Seats (result (EstimateWidth (NewWidthEstimator countFn) r)) <= 10)
  /\ (forall e : listWidthEstimator,
      1 <= Seats (result (listWidthEstimator_estimate e r)) <= 10)
  /\ (forall e : mutatingWidthEstimator,
      1 <= Seats (result (mutatingWidthEstimator_estimate e r)) <= 10).
Proof.
  split; [|split].
  - intros countFn.
    unfold EstimateWidth, NewWidthEstimator, widthEstimator_estimate.
    unfold RequestInfoFrom.
    destruct (Context r) as [ri|] eqn:Hctx; [|simpl; unfold maximumSeats; lia].
    case_decide; [|simpl; unfold minimumSeats; lia].
    apply (list_estimate_range {| list_countFn := countFn |}).
  - intros e. apply list_estimate_range.
  - intros e. apply mutating_estimate_range.
Qed.

(** C3. A request without a [RequestInfo] in its context costs
    [maximumSeats] = 10 whatever its URL and query are: the public entry
    point returns that width and logs the anomaly, and the list and the
    mutating estimator return it as well.  The estimators are total
    functions, so no call fails. *)
Theorem missing_RequestInfo_maximumSeats (r : Request) :
  Context r = None ->
  (forall countFn : objectCountGetterFunc,
      EstimateWidth (NewWidthEstimator countFn) r
      = ({| Seats := 10 |},
         [ {| log_err := "no RequestInfo found in context";
              log_msg := "Failed to estimate width for the request";
              log_keysAndValues := [("URI", RequestURI r)] |} ]))
  /\ (forall e : listWidthEstimator,
      listWidthEstimator_estimate e r = ret {| Seats := 10 |})
  /\ (forall e : mutatingWidthEstimator,
      mutatingWidthEstimator_estimate e r = ret {| Seats := 10 |}).
Proof.
  intros Hctx. repeat split.
  - intros countFn.
    unfold EstimateWidth, NewWidthEstimator, widthEstimator_estimate, RequestInfoFrom.
    rewrite Hctx. reflexivity.
  - intros e. unfold listWidthEstimator_estimate, RequestInfoFrom.
    rewrite Hctx. reflexivity.
  - intros e. unfold mutatingWidthEstimator_estimate, RequestInfoFrom.
    rewrite Hctx. reflexivity.
Qed.

(** C4. [shouldListFromStorage] answers true exactly when the resource
    version is empty, or paging is enabled and the continue token is not
    empty, or paging is enabled and the limit is positive and the resource
    version is not "0", or the resource version match is Exact; the list
    is served from the cache exactly when none of the four holds. *)
Theorem shouldListFromStorage_iff (query : Values) (opts : ListOptions) :
  (shouldListFromStorage query opts = true
   <-> (ResourceVersion opts = ""
        \/ (APIListChunking = true /\ Continue opts <> "")
        \/ (APIListChunking = true /\ Limit opts > 0 /\ ResourceVersion opts <> "0")
        \/ ResourceVersionMatch opts = ResourceVersionMatchExact))
  /\ (negb (shouldListFromStorage query opts) = true
      <-> ~ spec_willServeFromStorage opts APIListChunking).
Proof.
  split.
  - apply shouldListFromStorage_spec.
  - rewrite negb_true_iff, <- not_true_iff_false.
    apply not_iff_compat, shouldListFromStorage_spec.
Qed.

(** C6. When the request has a descriptor, its query parses, the object
    count is 0 (unknown) and the limit is 0 or the list would be served
    from the cache, the list estimator returns [maximumSeats] = 10 and logs
    nothing; so does [EstimateWidth] for the verb list. *)
Theorem unknown_count_maximumSeats (e : listWidthEstimator) (r : Request)
    (ri : RequestInfo) (opts : ListOptions) :
  Context r = Some ri ->
  Convert_url_Values_To_v1_ListOptions (URL_Query r) = inr opts ->
  objectCountGetterFunc_Get (list_countFn e) (key ri) = 0 ->
  Limit opts = 0 \/ shouldListFromStorage (URL_Query r) opts = false ->
  listWidthEstimator_estimate e r = ret {| Seats := 10 |}
  /\ (Verb ri = "list" ->
      EstimateWidth (NewWidthEstimator (list_countFn e)) r = ret {| Seats := 10 |}).
Proof.
  intros Hctx Hconv Hcount Hbranch.
  assert (Hlist : listWidthEstimator_estimate e r = ret {| Seats := 10 |}).
  { rewrite (list_estimate_parsed e r ri opts Hctx Hconv). cbv zeta.
    unfold objectCountGetterFunc_Get in Hcount. rewrite Hcount.
    rewrite (bool_decide_eq_true_2 (0 = 0)) by reflexivity.
    destruct Hbranch as [Hlimit | Hcache].
    - rewrite Hlimit. reflexivity.
    - rewrite Hcache, orb_true_r. reflexivity. }
  split; [exact Hlist|].
  intros Hverb. rewrite (dispatch_list _ r ri Hctx Hverb).
  destruct e as [countFn]. exact Hlist.
Qed.

(** C7. When the request has a descriptor but its query does not convert
    into [ListOptions], the list estimator returns [minimumSeats] = 1; the
    conversion error goes to the log and the caller still receives a
    [Width].  A request without a descriptor gets [maximumSeats] = 10 from
    the same estimator. *)
Theorem malformed_query_minimumSeats (e : listWidthEstimator) (r : Request)
    (ri : RequestInfo) (err : error) :
  Context r = Some ri ->
  Convert_url_Values_To_v1_ListOptions (URL_Query r) = inl err ->
  listWidthEstimator_estimate e r
  = ({| Seats := 1 |},
     [ {| log_err := err;
          log_msg := "Failed to convert options while calculating request width";
          log_keysAndValues := [] |} ])
  /\ (forall r' : Request, Context r' = None ->
        Seats (result (listWidthEstimator_estimate e r')) = 10).
Proof.
  intros Hctx Hconv. split.
  - unfold listWidthEstimator_estimate, RequestInfoFrom.
    rewrite Hctx, Hconv. reflexivity.
  - intros r' Hnone. unfold listWidthEstimator_estimate, RequestInfoFrom.
    rewrite Hnone. reflexivity.
Qed.

(** C9. A request whose descriptor resolves and whose verb is neither
    list nor one of create, update, patch and delete gets
    [minimumSeats] = 1 from [EstimateWidth], and nothing is logged. *)
Theorem other_verbs_minimumSeats (countFn : objectCountGetterFunc) (r : Request)
    (ri : RequestInfo) :
  Context r = Some ri ->
  Verb ri <> "list" ->
  Verb ri ∉ mutating_verbs ->
  EstimateWidth (NewWidthEstimator countFn) r = ret {| Seats := 1 |}.
Proof.
  intros Hctx Hlist _. exact (dispatch_other countFn r ri Hctx Hlist).
Qed.

(** C5 (amended). For a request with a descriptor and a query that parses,
    outside the unknown-count branch, let estimatedObjects be the count
    when the list is served from the cache, and otherwise the limit when it
    is positive and the count when it is not.  When the limit of a list
    served from storage is not negative and estimatedObjects lies above
    -100, the list estimator logs nothing and returns
    ceil(estimatedObjects / 100) clamped into [1, 10].  With resource
    version "0", limit 799 and count 799 that is 8 seats; with paging
    enabled (the [APIListChunking] gate on), resource version "1",
    limit 499 and count 799 it is 5 seats. *)
Theorem list_estimate_formula (e : listWidthEstimator) (r : Request)
    (ri : RequestInfo) (opts : ListOptions) :
  Context r = Some ri ->
  Convert_url_Values_To_v1_ListOptions (URL_Query r) = inr opts ->
  ~ ((Limit opts = 0 \/ negb (shouldListFromStorage (URL_Query r) opts) = true)
     /\ objectCountGetterFunc_Get (list_countFn e) (key ri) = 0) ->
  negb (shouldListFromStorage (URL_Query r) opts) = true \/ 0 <= Limit opts ->
  - 100 < spec_estimatedObjects
            (negb (shouldListFromStorage (URL_Query r) opts))
            (Limit opts)
            (objectCountGetterFunc_Get (list_countFn e) (key ri)) ->
  is_int64 (Limit opts) ->
  is_int64 (objectCountGetterFunc_Get (list_countFn e) (key ri)) ->
  listWidthEstimator_estimate e r
  = ret {| Seats :=
             spec_seats
               (spec_estimatedObjects
                  (negb (shouldListFromStorage (URL_Query r) opts))
                  (Limit opts)
                  (objectCountGetterFunc_Get (list_countFn e) (key ri))) |}
  /\ (ResourceVersion opts = "0" -> Limit opts = 799 ->
      objectCountGetterFunc_Get (list_countFn e) (key ri) = 799 ->
      Seats (result (listWidthEstimator_estimate e r)) = 8)
  /\ (APIListChunking = true -> ResourceVersion opts = "1" -> Limit opts = 499 ->
      objectCountGetterFunc_Get (list_countFn e) (key ri) = 799 ->
      Seats (result (listWidthEstimator_estimate e r)) = 5).
Proof.
  unfold objectCountGetterFunc_Get.
  intros Hctx Hconv Hknown Hlimit Hlow Hlimit64 Hcount64.
  assert (Hest : listWidthEstimator_estimate e r
    = ret {| Seats := spec_seats (spec_estimatedObjects
               (negb (shouldListFromStorage (URL_Query r) opts))
               (Limit opts) (list_countFn e (key ri))) |}).
  { rewrite (list_estimate_parsed e r ri opts Hctx Hconv). cbv zeta.
    destruct (negb (shouldListFromStorage (URL_Query r) opts)) eqn:Hcache;
      unfold spec_estimatedObjects in *.
    - rewrite orb_true_r, andb_true_l.
      rewrite bool_decide_eq_false_2 by (intros H0; apply Hknown; auto).
      rewrite seats_for_int64 by assumption. reflexivity.
    - destruct Hlimit as [Hc | Hlimit]; [discriminate|].
      rewrite orb_false_r.
      destruct (decide (Limit opts = 0)) as [Hz | Hnz].
      + rewrite (bool_decide_eq_true_2 _ Hz), andb_true_l.
        rewrite bool_decide_eq_false_2 by (intros H0; apply Hknown; auto).
        rewrite decide_False in Hlow |- * by lia.
        rewrite seats_for_int64 by assumption. reflexivity.
      + rewrite (bool_decide_eq_false_2 _ Hnz), andb_false_l.
        rewrite decide_True in Hlow |- * by lia.
        rewrite seats_for_int64 by assumption. reflexivity. }
  split; [exact Hest|]. split.
  - intros Hrv Hl Hc. rewrite Hest, Hl, Hc. simpl.
    destruct (negb _); reflexivity.
  - intros Hpaging Hrv Hl Hc. rewrite Hest, Hl, Hc.
    assert (Hstorage : shouldListFromStorage (URL_Query r) opts = true).
    { apply shouldListFromStorage_spec. right. right. left.
      rewrite Hrv, Hl. split; [assumption | split; [lia | discriminate]]. }
    rewrite Hstorage. reflexivity.
Qed.

(** The serving decision looks at the limit only through its sign. *)
Lemma shouldListFromStorage_limit (q1 q2 : Values) (opts1 opts2 : ListOptions) :
  ResourceVersion opts1 = ResourceVersion opts2 ->
  ResourceVersionMatch opts1 = ResourceVersionMatch opts2 ->
  Continue opts1 = Continue opts2 ->
  0 < Limit opts1 -> 0 < Limit opts2 ->
  shouldListFromStorage q1 opts1 = shouldListFromStorage q2 opts2.
Proof.
  intros Hrv Hrvm Hcont H1 H2. unfold shouldListFromStorage.
  rewrite Hrv, Hrvm, Hcont.
  rewrite (bool_decide_eq_true_2 (Limit opts1 > 0)) by lia.
  rewrite (bool_decide_eq_true_2 (Limit opts2 > 0)) by lia.
  reflexivity.
Qed.

(** C8 (amended). For one descriptor: (1) between two requests served from
    storage whose options differ in the limit only, both limits positive,
    the list estimator gives the larger limit at least as many seats;
    (2) for one request served from the cache, between two count sources
    that both know the count (it is positive), the list estimator gives
    the larger count at least as many seats. *)
Theorem list_seats_monotone (ri : RequestInfo) :
  (forall (e : listWidthEstimator) (r1 r2 : Request) (opts1 opts2 : ListOptions),
      Context r1 = Some ri -> Context r2 = Some ri ->
      Convert_url_Values_To_v1_ListOptions (URL_Query r1) = inr opts1 ->
      Convert_url_Values_To_v1_ListOptions (URL_Query r2) = inr opts2 ->
      ResourceVersion opts1 = ResourceVersion opts2 ->
      ResourceVersionMatch opts1 = ResourceVersionMatch opts2 ->
      Continue opts1 = Continue opts2 ->
      negb (shouldListFromStorage (URL_Query r1) opts1) = false ->
      0 < Limit opts1 -> Limit opts1 <= Limit opts2 -> is_int64 (Limit opts2) ->
      Seats (result (listWidthEstimator_estimate e r1))
      <= Seats (result (listWidthEstimator_estimate e r2)))
  /\ (forall (e1 e2 : listWidthEstimator) (r : Request) (opts : ListOptions),
      Context r = Some ri ->
      Convert_url_Values_To_v1_ListOptions (URL_Query r) = inr opts ->
      negb (shouldListFromStorage (URL_Query r) opts) = true ->
      0 < objectCountGetterFunc_Get (list_countFn e1) (key ri) ->
      objectCountGetterFunc_Get (list_countFn e1) (key ri)
      <= objectCountGetterFunc_Get (list_countFn e2) (key ri) ->
      is_int64 (objectCountGetterFunc_Get (list_countFn e2) (key ri)) ->
      Seats (result (listWidthEstimator_estimate e1 r))
      <= Seats (result (listWidthEstimator_estimate e2 r))).
Proof.
  unfold objectCountGetterFunc_Get, is_int64. split.
  - intros e r1 r2 opts1 opts2 Hctx1 Hctx2 Hconv1 Hconv2 Hrv Hrvm Hcont
      Hstorage Hpos Hle H64.
    assert (Hstorage2 : negb (shouldListFromStorage (URL_Query r2) opts2) = false).
    { rewrite <- Hstorage. f_equal. symmetry.
      apply shouldListFromStorage_limit; (assumption || lia). }
    rewrite (list_estimate_parsed e r1 ri opts1 Hctx1 Hconv1).
    rewrite (list_estimate_parsed e r2 ri opts2 Hctx2 Hconv2).
    cbv zeta. rewrite Hstorage, Hstorage2.
    rewrite (bool_decide_eq_false_2 (Limit opts1 = 0)) by lia.
    rewrite (bool_decide_eq_false_2 (Limit opts2 = 0)) by lia.
    rewrite (decide_False (P := Limit opts1 = 0)) by lia.
    rewrite (decide_False (P := Limit opts2 = 0)) by lia. simpl.
    rewrite !seats_for_int64 by (unfold is_int64; lia).
    apply spec_seats_mono. assumption.
  - intros e1 e2 r opts Hctx Hconv Hcache Hpos Hle H64.
    rewrite (list_estimate_parsed e1 r ri opts Hctx Hconv).
    rewrite (list_estimate_parsed e2 r ri opts Hctx Hconv).
    cbv zeta. rewrite Hcache.
    rewrite (bool_decide_eq_false_2 (list_countFn e1 (key ri) = 0)) by lia.
    rewrite (bool_decide_eq_false_2 (list_countFn e2 (key ri) = 0)) by lia.
    rewrite !andb_false_r. simpl.
    rewrite !seats_for_int64 by (unfold is_int64; lia).
    apply spec_seats_mono. assumption.
Qed.

End Properties.

(** *** The count key *)

Lemma count_char_app (c : ascii) (s t : string) :
  count_char c (s +:+ t) = (count_char c s + count_char c t)%nat.
Proof.
  induction s as [|a s IH]; simpl; [reflexivity|].
  rewrite IH. lia.
Qed.

(** A dot-joined key never reads as the slash-joined pair in the other
    order: the two differ in their number of dots. *)
Lemma dot_key_not_slash_key (resource group : string) :
  resource +:+ "." +:+ group <> group +:+ "/" +:+ resource.
Proof.
  intros Heq. apply (f_equal (count_char ".")) in Heq.
  rewrite !count_char_app in Heq. simpl in Heq. lia.
Qed.

(** C10. The key under which the list estimator looks up the object count
    is the resource name when the API group is empty, and the resource
    name, a dot and the group otherwise, which is never the group, a slash
    and the resource; descriptors with the same group and resource have
    the same key. *)
Theorem key_format (ri : RequestInfo) :
  (APIGroup ri = "" -> key ri = Resource ri)
  /\ (APIGroup ri <> "" ->
      key ri = Resource ri +:+ "." +:+ APIGroup ri
      /\ key ri <> APIGroup ri +:+ "/" +:+ Resource ri)
  /\ (forall ri' : RequestInfo,
      APIGroup ri' = APIGroup ri -> Resource ri' = Resource ri -> key ri' = key ri).
Proof.
  unfold key, GroupResource_String. simpl. repeat split.
  - intros Hg. rewrite Hg. reflexivity.
  - destruct (APIGroup ri) as [|a g]; [congruence|]. reflexivity.
  - destruct (APIGroup ri) as [|a g]; [congruence|].
    simpl String.length. rewrite decide_False by discriminate.
    apply dot_key_not_slash_key.
  - intros ri' Hg Hr. rewrite Hg, Hr. reflexivity.
Qed.

(** The key of the descriptor used throughout width_test.go. *)
Example key_foo_list : key foo_list = "resource.foo.bar".
Proof. reflexivity. Qed.

(** *** Mutating requests *)

(** The expectations of the second version of width_test.go hold for the
    mutating estimator taken alone. *)
Example test_mutating_no_watches :
  Seats (result (mutatingWidthEstimator_estimate (env := test_env)
                   (test_mutating_estimator 0)
                   (test_request (Some (foo_mutating "create")) []))) = 1.
Proof. vm_compute. reflexivity. Qed.

Example test_mutating_watches_registered :
  Seats (result (mutatingWidthEstimator_estimate (env := test_env)
                   (test_mutating_estimator 299)
                   (test_request (Some (foo_mutating "create")) []))) = 3.
Proof. vm_compute. reflexivity. Qed.

Example test_mutating_maximum_is_capped :
  Seats (result (mutatingWidthEstimator_estimate (env := test_env)
                   (test_mutating_estimator 1999)
                   (test_request (Some (foo_mutating "create")) []))) = 10.
Proof. vm_compute. reflexivity. Qed.




(** *** The properties at the requests of width_test.go *)

(** C3 at the test "request has no RequestInfo". *)
Lemma missing_RequestInfo_maximumSeats_witness :
  Context (test_request None []) = None
  /\ Seats (result (EstimateWidth (test_estimator ∅) (test_request None []))) = 10.
Proof.
  split; [reflexivity|].
  pose proof (missing_RequestInfo_maximumSeats (env := test_env)
                (test_request None []) eq_refl) as [Hwidth _].
  unfold test_estimator. rewrite Hwidth. reflexivity.
Defined.

(** C5 at the test "request verb is list, has limit". *)
Lemma list_estimate_formula_witness :
  let r := test_request (Some foo_list) [("limit", ["499"]); ("resourceVersion", ["1"])] in
  let e := {| list_countFn := countsFn (foo_counts 799) |} in
  let opts := {| ResourceVersion := "1"; ResourceVersionMatch := "";
                 Limit := 499; Continue := "" |} in
  (Context r = Some foo_list
   /\ convert_query (URL_Query r) = inr opts
   /\ 0 <= Limit opts /\ is_int64 (Limit opts)
   /\ list_countFn e (key foo_list) = 799 /\ is_int64 (list_countFn e (key foo_list)))
  /\ listWidthEstimator_estimate (env := test_env) e r = ret {| Seats := 5 |}.
Proof.
  intros r e opts.
  assert (Hconv : convert_query (URL_Query r) = inr opts) by (vm_compute; reflexivity).
  assert (Hcount : list_countFn e (key foo_list) = 799) by (vm_compute; reflexivity).
  assert (H64 : is_int64 499 /\ is_int64 799) by (unfold is_int64; lia).
  assert (Hstorage : shouldListFromStorage (env := test_env) (URL_Query r) opts = true)
    by (vm_compute; reflexivity).
  split.
  - rewrite Hcount. simpl.
    repeat split; (reflexivity || lia || apply H64 || exact Hconv).
  - destruct (list_estimate_formula (env := test_env) e r foo_list opts) as [Hest _].
    + reflexivity.
    + exact Hconv.
    + unfold objectCountGetterFunc_Get. rewrite Hcount. intros [_ H0]. lia.
    + right. simpl. lia.
    + unfold objectCountGetterFunc_Get. rewrite Hcount, Hstorage. simpl.
      unfold spec_estimatedObjects. simpl. lia.
    + apply H64.
    + unfold objectCountGetterFunc_Get. rewrite Hcount. apply H64.
    + rewrite Hest. vm_compute. reflexivity.
Defined.

(** C5 as it is stated fails with the [APIListChunking] gate off: the
    request with resource version "1" and limit 499 is then served from the
    cache, so with 799 objects it is costed by the count and gets 8 seats,
    not 5. *)
Lemma has_limit_gate_off_eight_seats :
  let r := test_request (Some foo_list) [("limit", ["499"]); ("resourceVersion", ["1"])] in
  let e := {| list_countFn := countsFn (foo_counts 799) |} in
  let opts := {| ResourceVersion := "1"; ResourceVersionMatch := "";
                 Limit := 499; Continue := "" |} in
  Context r = Some foo_list
  /\ convert_query (URL_Query r) = inr opts
  /\ list_countFn e (key foo_list) = 799
  /\ APIListChunking (Surroundings := gate_off_env) = false
  /\ negb (shouldListFromStorage (env := gate_off_env) (URL_Query r) opts) = true
  /\ Seats (result (listWidthEstimator_estimate (env := gate_off_env) e r)) = 8
  /\ Seats (result (EstimateWidth
                      (NewWidthEstimator (env := gate_off_env) (countsFn (foo_counts 799)))
                      r)) = 8
  /\ Seats (result (listWidthEstimator_estimate (env := gate_off_env) e r)) <> 5.
Proof.
  intros r e opts.
  repeat split; try (vm_compute; reflexivity).
  vm_compute. discriminate.
Qed.

(** A negative limit, which the query parser accepts, is read in two ways:
    [shouldListFromStorage] takes it for no limit, the estimate for the
    number of objects.  On [?limit=-5] with 799 objects the list is served
    from storage and gets 1 seat, where the rule "the limit when it is
    positive, else the count" arrives at 8 seats. *)
Lemma list_estimate_negative_limit :
  let r := test_request (Some foo_list) [("limit", ["-5"])] in
  let e := {| list_countFn := countsFn (foo_counts 799) |} in
  let opts := {| ResourceVersion := ""; ResourceVersionMatch := "";
                 Limit := -5; Continue := "" |} in
  Context r = Some foo_list
  /\ convert_query (URL_Query r) = inr opts
  /\ list_countFn e (key foo_list) = 799
  /\ negb (shouldListFromStorage (env := test_env) (URL_Query r) opts) = false
  /\ spec_seats (spec_estimatedObjects false (Limit opts) 799) = 8
  /\ Seats (result (listWidthEstimator_estimate (env := test_env) e r)) = 1
  /\ Seats (result (EstimateWidth (test_estimator (foo_counts 799)) r)) = 1
  /\ listWidthEstimator_estimate (env := test_env) e r
     <> ret {| Seats :=
                 spec_seats
                   (spec_estimatedObjects
                      (negb (shouldListFromStorage (env := test_env) (URL_Query r) opts))
                      (Limit opts) (list_countFn e (key foo_list))) |}.
Proof.
  intros r e opts.
  repeat split; try (vm_compute; reflexivity).
  vm_compute. discriminate.
Qed.

(** C6 at the test "request verb is list, list from cache, count not known". *)
Lemma unknown_count_maximumSeats_witness :
  let r := test_request (Some foo_list) [("resourceVersion", ["0"]); ("limit", ["799"])] in
  let e := {| list_countFn := countsFn ∅ |} in
  let opts := {| ResourceVersion := "0"; ResourceVersionMatch := "";
                 Limit := 799; Continue := "" |} in
  (Context r = Some foo_list
   /\ convert_query (URL_Query r) = inr opts
   /\ objectCountGetterFunc_Get (list_countFn e) (key foo_list) = 0
   /\ shouldListFromStorage (env := test_env) (URL_Query r) opts = false)
  /\ listWidthEstimator_estimate (env := test_env) e r = ret {| Seats := 10 |}
  /\ EstimateWidth (test_estimator ∅) r = ret {| Seats := 10 |}.
Proof.
  intros r e opts.
  assert (Hconv : convert_query (URL_Query r) = inr opts) by (vm_compute; reflexivity).
  assert (Hcount : objectCountGetterFunc_Get (list_countFn e) (key foo_list) = 0)
    by (vm_compute; reflexivity).
  assert (Hcache : shouldListFromStorage (env := test_env) (URL_Query r) opts = false)
    by (vm_compute; reflexivity).
  split; [repeat split; assumption|].
  destruct (unknown_count_maximumSeats (env := test_env) e r foo_list opts
              eq_refl Hconv Hcount (or_intror Hcache)) as [Hlist Hwidth].
  split; [exact Hlist | exact (Hwidth eq_refl)].
Defined.

(** C7 on a limit that is not a number. *)
Lemma malformed_query_minimumSeats_witness :
  let r := test_request (Some foo_list) [("limit", ["many"])] in
  let e := {| list_countFn := countsFn (foo_counts 799) |} in
  let err := "strconv.ParseInt: parsing many: invalid syntax" in
  (Context r = Some foo_list /\ convert_query (URL_Query r) = inl err)
  /\ Seats (result (listWidthEstimator_estimate (env := test_env) e r)) = 1
  /\ logged (listWidthEstimator_estimate (env := test_env) e r)
     = [ {| log_err := err;
            log_msg := "Failed to convert options while calculating request width";
            log_keysAndValues := [] |} ]
  /\ Seats (result (listWidthEstimator_estimate (env := test_env) e
                      (test_request None [("limit", ["many"])]))) = 10.
Proof.
  intros r e err.
  assert (Hconv : convert_query (URL_Query r) = inl err) by (vm_compute; reflexivity).
  split; [split; [reflexivity | exact Hconv]|].
  destruct (malformed_query_minimumSeats (env := test_env) e r foo_list err
              eq_refl Hconv) as [Hlist Hmissing].
  rewrite Hlist.
  split; [reflexivity | split; [reflexivity | apply Hmissing; reflexivity]].
Defined.

(** C8 at the limits 499 and 799 of the tests, and at the counts 799 and
    1999. *)
Lemma list_seats_monotone_witness :
  let e := {| list_countFn := countsFn (foo_counts 799) |} in
  let e' := {| list_countFn := countsFn (foo_counts 1999) |} in
  let r1 := test_request (Some foo_list) [("limit", ["499"]); ("resourceVersion", ["1"])] in
  let r2 := test_request (Some foo_list) [("limit", ["799"]); ("resourceVersion", ["1"])] in
  let r := test_request (Some foo_list) [("resourceVersion", ["0"])] in
  Seats (result (listWidthEstimator_estimate (env := test_env) e r1))
  <= Seats (result (listWidthEstimator_estimate (env := test_env) e r2))
  /\ Seats (result (listWidthEstimator_estimate (env := test_env) e r))
     <= Seats (result (listWidthEstimator_estimate (env := test_env) e' r)).
Proof.
  intros e e' r1 r2 r.
  destruct (list_seats_monotone (env := test_env) foo_list) as [Hlimit Hcount].
  split.
  - apply (Hlimit e r1 r2
             {| ResourceVersion := "1"; ResourceVersionMatch := "";
                Limit := 499; Continue := "" |}
             {| ResourceVersion := "1"; ResourceVersionMatch := "";
                Limit := 799; Continue := "" |});
      try (vm_compute; reflexivity); try (simpl; lia).
    unfold is_int64; simpl; lia.
  - apply (Hcount e e' r
             {| ResourceVersion := "0"; ResourceVersionMatch := "";
                Limit := 0; Continue := "" |});
      try (vm_compute; reflexivity).
    + vm_compute. discriminate.
    + split; vm_compute; [discriminate | reflexivity].
Defined.

(** C8 as it is stated fails where the count becomes known: a request
    served from the cache gets 10 seats while the count reads 0 and 1 seat
    once it reads 1. *)
Lemma cache_seats_drop_when_count_known :
  let r := test_request (Some foo_list) [("resourceVersion", ["0"])] in
  let e0 := {| list_countFn := countsFn (foo_counts 0) |} in
  let e1 := {| list_countFn := countsFn (foo_counts 1) |} in
  let opts := {| ResourceVersion := "0"; ResourceVersionMatch := "";
                 Limit := 0; Continue := "" |} in
  convert_query (URL_Query r) = inr opts
  /\ negb (shouldListFromStorage (env := test_env) (URL_Query r) opts) = true
  /\ list_countFn e0 (key foo_list) = 0
  /\ list_countFn e1 (key foo_list) = 1
  /\ Seats (result (listWidthEstimator_estimate (env := test_env) e0 r)) = 10
  /\ Seats (result (listWidthEstimator_estimate (env := test_env) e1 r)) = 1
  /\ ~ (Seats (result (listWidthEstimator_estimate (env := test_env) e0 r))
        <= Seats (result (listWidthEstimator_estimate (env := test_env) e1 r))).
Proof.
  intros r e0 e1 opts.
  repeat split; try (vm_compute; reflexivity).
  vm_compute. intros H. apply H. reflexivity.
Qed.

(** C9 at the test "request verb is not list". *)
Lemma other_verbs_minimumSeats_witness :
  let ri := {| Verb := "get"; APIGroup := ""; Resource := "" |} in
  let r := test_request (Some ri) [] in
  (Context r = Some ri /\ Verb ri <> "list" /\ Verb ri ∉ mutating_verbs)
  /\ EstimateWidth (test_estimator ∅) r = ret {| Seats := 1 |}.
Proof.
  intros ri r.
  assert (Hlist : Verb ri <> "list") by (simpl; discriminate).
  assert (Hmut : Verb ri ∉ mutating_verbs)
    by (apply (bool_decide_unpack _); vm_compute; exact I).
  split; [repeat split; assumption|].
  exact (other_verbs_minimumSeats (env := test_env) (countsFn ∅) r ri
           eq_refl Hlist Hmut).
Defined.

(** C10 at the descriptor of the tests. *)
Lemma key_format_witness :
  APIGroup foo_list <> ""
  /\ key foo_list = "resource.foo.bar"
  /\ key foo_list <> "foo.bar/resource".
Proof.
  assert (Hgroup : APIGroup foo_list <> "") by (simpl; discriminate).
  destruct (key_format foo_list) as (_ & Hdot & _).
  destruct (Hdot Hgroup) as [Hkey Hslash].
  split; [exact Hgroup | split; [exact Hkey | exact Hslash]].
Defined.

(** *** Why the amended properties carry their side conditions *)

(** With the [APIListChunking] gate off, a limit does not send the list to
    storage: the request of the test "has limit" is costed by the count. *)
Example has_limit_without_paging :
  Seats (result (EstimateWidth
                   (NewWidthEstimator (env := no_paging_env) (countsFn (foo_counts 799)))
                   (test_request (Some foo_list)
                      [("limit", ["499"]); ("resourceVersion", ["1"])]))) = 8.
Proof. vm_compute. reflexivity. Qed.

(** A count of -150 has the ceiling -1, which no [uint] represents: the
    seats then depend on the platform (and stay within the range). *)
Example negative_count_platform_dependent :
  let r := test_request (Some foo_list) [("resourceVersion", ["0"])] in
  let e := {| list_countFn := countsFn (foo_counts (-150)) |} in
  Seats (result (listWidthEstimator_estimate (env := test_env) e r)) = 10
  /\ Seats (result (listWidthEstimator_estimate (env := no_paging_env) e r)) = 1.
Proof. split; vm_compute; reflexivity. Qed.

(** ** Further properties of the estimators *)

Section MoreProperties.

Context {env : Surroundings}.

(** *** The seat formula *)

(** X3. The clamped formula in figures, for a number of objects or
    watchers above -100: one seat up to 100, [k] seats from [100 (k - 1) + 1]
    to [100 k] for [k] from 2 to 9, and ten seats from 901 on. *)
Theorem seats_for_brackets (n : Z) :
  - 100 < n -> is_int64 n ->
  (seats_for n = 1 <-> n <= 100)
  /\ (forall k : Z, 1 < k < 10 -> (seats_for n = k <-> 100 * (k - 1) < n <= 100 * k))
  /\ (seats_for n = 10 <-> 900 < n).
Proof.
  intros Hlow H64. rewrite (seats_for_int64 n Hlow H64).
  unfold spec_seats, clamp_seats, minimumSeats, maximumSeats.
  pose proof (Ceil_div_bounds n 100 ltac:(lia)) as Hc.
  repeat split; intros; lia.
Qed.

(** *** The mutating estimator *)

(** X1. For a request with a descriptor and a non-negative watch count the
    mutating estimator returns ceil(watchCount / 100) clamped into [1, 10]
    and logs nothing. *)
Theorem mutating_estimate_formula (e : mutatingWidthEstimator) (r : Request)
    (ri : RequestInfo) :
  Context r = Some ri ->
  0 <= watchCountGetterFunc_Get (mutating_countFn e) ri ->
  is_int64 (watchCountGetterFunc_Get (mutating_countFn e) ri) ->
  mutatingWidthEstimator_estimate e r
  = ret {| Seats :=
             Z.max 1 (Z.min 10
               (Ceil_div (watchCountGetterFunc_Get (mutating_countFn e) ri) 100)) |}.
Proof.
  intros Hctx Hpos H64.
  unfold mutatingWidthEstimator_estimate, RequestInfoFrom. rewrite Hctx.
  rewrite seats_for_int64 by (assumption || lia). reflexivity.
Qed.

(** X2. More watchers never cost fewer seats: for one request with a
    descriptor, the mutating estimator over a larger non-negative watch
    count returns at least as many seats. *)
Theorem mutating_seats_monotone (e1 e2 : mutatingWidthEstimator) (r : Request)
    (ri : RequestInfo) :
  Context r = Some ri ->
  0 <= watchCountGetterFunc_Get (mutating_countFn e1) ri ->
  watchCountGetterFunc_Get (mutating_countFn e1) ri
  <= watchCountGetterFunc_Get (mutating_countFn e2) ri ->
  is_int64 (watchCountGetterFunc_Get (mutating_countFn e2) ri) ->
  Seats (result (mutatingWidthEstimator_estimate e1 r))
  <= Seats (result (mutatingWidthEstimator_estimate e2 r)).
Proof.
  unfold is_int64. intros Hctx Hpos Hle H64.
  unfold mutatingWidthEstimator_estimate, RequestInfoFrom. rewrite Hctx. simpl.
  rewrite !seats_for_int64 by (unfold is_int64; lia).
  apply spec_seats_mono. assumption.
Qed.

(** *** What is logged *)

(** X4. A call logs at most one entry.  [EstimateWidth] logs nothing
    exactly when the request has a descriptor and, for the verb list, its
    query converts; the list estimator taken alone logs nothing exactly
    when the descriptor is missing or the query converts. *)
Theorem logged_entries (r : Request) :
  (forall countFn : objectCountGetterFunc,
      (length (logged (EstimateWidth (NewWidthEstimator countFn) r)) <= 1)%nat
      /\ (logged (EstimateWidth (NewWidthEstimator countFn) r) = []
          <-> exists ri : RequestInfo,
              Context r = Some ri
              /\ (Verb ri = "list" ->
                  exists opts : ListOptions,
                    Convert_url_Values_To_v1_ListOptions (URL_Query r) = inr opts)))
  /\ (forall e : listWidthEstimator,
      logged (listWidthEstimator_estimate e r) = []
      <-> Context r = None
          \/ exists opts : ListOptions,
              Convert_url_Values_To_v1_ListOptions (URL_Query r) = inr opts).
Proof.
  assert (Hlist : forall e : listWidthEstimator,
    (length (logged (listWidthEstimator_estimate e r)) <= 1)%nat
    /\ (logged (listWidthEstimator_estimate e r) = []
        <-> Context r = None
            \/ exists opts : ListOptions,
                Convert_url_Values_To_v1_ListOptions (URL_Query r) = inr opts)).
  { intros e. unfold listWidthEstimator_estimate, RequestInfoFrom.
    destruct (Context r) as [ri|]; [|simpl; split; [lia | tauto]].
    destruct (Convert_url_Values_To_v1_ListOptions (URL_Query r)) as [err|opts].
    - simpl. split; [lia|]. split; [discriminate|].
      intros [Hnone | [opts Hopts]]; discriminate.
    - match goal with |- context [if ?b then _ else _] => destruct b end;
        simpl; (split; [lia|]); split; eauto. }
  split; [|intros e; apply Hlist].
  intros countFn.
  unfold EstimateWidth, NewWidthEstimator, widthEstimator_estimate, RequestInfoFrom.
  destruct (Context r) as [ri|] eqn:Hctx.
  - case_decide as Hverb.
    + unfold EstimateWidth. simpl. unfold newListWidthEstimator.
      destruct (Hlist {| list_countFn := countFn |}) as [Hlen Hiff].
      split; [exact Hlen|]. rewrite Hiff. split.
      * intros [Hnone | Hopts]; [congruence|]. exists ri. auto.
      * intros (ri' & Hri' & Hopts). injection Hri' as <-.
        right. apply Hopts. exact Hverb.
    + simpl. split; [lia|]. split; [|reflexivity].
      intros _. exists ri. split; [reflexivity | intros; contradiction].
  - simpl. split; [lia|]. split; [discriminate|].
    intros (ri & Hri & _). discriminate.
Qed.

(** *** Which number the list estimator reads *)

Lemma list_estimate_limited_storage (e : listWidthEstimator) (r : Request)
    (ri : RequestInfo) (opts : ListOptions) :
  Context r = Some ri ->
  Convert_url_Values_To_v1_ListOptions (URL_Query r) = inr opts ->
  shouldListFromStorage (URL_Query r) opts = true ->
  Limit opts <> 0 ->
  listWidthEstimator_estimate e r = ret {| Seats := seats_for (Limit opts) |}.
Proof.
  intros Hctx Hconv Hstorage Hlimit.
  rewrite (list_estimate_parsed e r ri opts Hctx Hconv). cbv zeta.
  rewrite Hstorage. simpl negb.
  rewrite (bool_decide_eq_false_2 (Limit opts = 0)) by assumption.
  rewrite (decide_False (P := Limit opts = 0)) by assumption.
  reflexivity.
Qed.

(** X5. A list served from storage with a limit other than zero is costed
    by its limit alone: the count source is not consulted for the result,
    so any two list estimators agree on the request, also when the count
    is unknown. *)
Theorem limited_storage_list_ignores_count (e1 e2 : listWidthEstimator)
    (r : Request) (ri : RequestInfo) (opts : ListOptions) :
  Context r = Some ri ->
  Convert_url_Values_To_v1_ListOptions (URL_Query r) = inr opts ->
  shouldListFromStorage (URL_Query r) opts = true ->
  Limit opts <> 0 ->
  listWidthEstimator_estimate e1 r = ret {| Seats := seats_for (Limit opts) |}
  /\ listWidthEstimator_estimate e1 r = listWidthEstimator_estimate e2 r.
Proof.
  intros Hctx Hconv Hstorage Hlimit.
  rewrite (list_estimate_limited_storage e1 r ri opts) by assumption.
  rewrite (list_estimate_limited_storage e2 r ri opts) by assumption.
  split; reflexivity.
Qed.

(** X6. A list served from the cache is costed by the count alone: two
    requests for the same resource that are both served from the cache get
    the same width from a list estimator, whatever their limits, tokens and
    resource versions; the width is [maximumSeats] for the unknown count 0
    and the formula of the count otherwise. *)
Theorem cached_list_ignores_options (e : listWidthEstimator) (r1 r2 : Request)
    (ri : RequestInfo) (opts1 opts2 : ListOptions) :
  Context r1 = Some ri -> Context r2 = Some ri ->
  Convert_url_Values_To_v1_ListOptions (URL_Query r1) = inr opts1 ->
  Convert_url_Values_To_v1_ListOptions (URL_Query r2) = inr opts2 ->
  shouldListFromStorage (URL_Query r1) opts1 = false ->
  shouldListFromStorage (URL_Query r2) opts2 = false ->
  listWidthEstimator_estimate e r1
  = ret {| Seats :=
             if decide (list_countFn e (key ri) = 0) then maximumSeats
             else seats_for (list_countFn e (key ri)) |}
  /\ listWidthEstimator_estimate e r1 = listWidthEstimator_estimate e r2.
Proof.
  intros Hctx1 Hctx2 Hconv1 Hconv2 Hcache1 Hcache2.
  assert (Hany : forall (r : Request) (opts : ListOptions),
    Context r = Some ri ->
    Convert_url_Values_To_v1_ListOptions (URL_Query r) = inr opts ->
    shouldListFromStorage (URL_Query r) opts = false ->
    listWidthEstimator_estimate e r
    = ret {| Seats :=
               if decide (list_countFn e (key ri) = 0) then maximumSeats
               else seats_for (list_countFn e (key ri)) |}).
  { intros r opts Hctx Hconv Hcache.
    rewrite (list_estimate_parsed e r ri opts Hctx Hconv). cbv zeta.
    rewrite Hcache. simpl negb. rewrite orb_true_r, andb_true_l.
    unfold bool_decide.
    destruct (decide_rel eq (list_countFn e (key ri)) 0) as [Hz|Hnz].
    - rewrite decide_True by assumption. reflexivity.
    - rewrite decide_False by assumption. reflexivity. }
  split.
  - apply (Hany r1 opts1); assumption.
  - rewrite (Hany r1 opts1), (Hany r2 opts2) by assumption. reflexivity.
Qed.

(** X7. The list estimator reads the count source at the key of the
    request only: count sources that agree there give the same result, and
    with the counts kept in a map, writing the count of another key
    changes nothing. *)
Theorem list_estimate_reads_own_key (r : Request) (ri : RequestInfo) :
  Context r = Some ri ->
  (forall e1 e2 : listWidthEstimator,
      list_countFn e1 (key ri) = list_countFn e2 (key ri) ->
      listWidthEstimator_estimate e1 r = listWidthEstimator_estimate e2 r)
  /\ (forall (counts : gmap string Z) (k : string) (n : Z),
      k <> key ri ->
      listWidthEstimator_estimate {| list_countFn := countsFn (<[k := n]> counts) |} r
      = listWidthEstimator_estimate {| list_countFn := countsFn counts |} r).
Proof.
  intros Hctx.
  assert (Hagree : forall e1 e2 : listWidthEstimator,
    list_countFn e1 (key ri) = list_countFn e2 (key ri) ->
    listWidthEstimator_estimate e1 r = listWidthEstimator_estimate e2 r).
  { intros e1 e2 Heq. unfold listWidthEstimator_estimate, RequestInfoFrom.
    rewrite Hctx. unfold objectCountGetterFunc_Get. rewrite Heq. reflexivity. }
  split; [exact Hagree|].
  intros counts k n Hk. apply Hagree. simpl. unfold countsFn.
  rewrite lookup_insert_ne by assumption. reflexivity.
Qed.

(** X10. Asking for a page never costs more than asking for everything:
    when the count of a resource is unknown (0) or at least the positive
    limit of a list served from storage, that list gets at most the seats
    of a list of the same resource that is costed by the count (one
    served from the cache, or one without a limit). *)
Theorem limited_list_costs_no_more (e : listWidthEstimator) (r1 r2 : Request)
    (ri : RequestInfo) (opts1 opts2 : ListOptions) :
  Context r1 = Some ri -> Context r2 = Some ri ->
  Convert_url_Values_To_v1_ListOptions (URL_Query r1) = inr opts1 ->
  Convert_url_Values_To_v1_ListOptions (URL_Query r2) = inr opts2 ->
  shouldListFromStorage (URL_Query r1) opts1 = true ->
  0 < Limit opts1 ->
  shouldListFromStorage (URL_Query r2) opts2 = false \/ Limit opts2 = 0 ->
  list_countFn e (key ri) = 0 \/ Limit opts1 <= list_countFn e (key ri) ->
  is_int64 (list_countFn e (key ri)) ->
  Seats (result (listWidthEstimator_estimate e r1))
  <= Seats (result (listWidthEstimator_estimate e r2)).
Proof.
  unfold is_int64. intros Hctx1 Hctx2 Hconv1 Hconv2 Hstorage Hpos Hreads Hcount H64.
  rewrite (list_estimate_limited_storage e r1 ri opts1 Hctx1 Hconv1 Hstorage)
    by lia.
  simpl.
  assert (Hr2 : Seats (result (listWidthEstimator_estimate e r2))
                = if decide (list_countFn e (key ri) = 0) then maximumSeats
                  else seats_for (list_countFn e (key ri))).
  { rewrite (list_estimate_parsed e r2 ri opts2 Hctx2 Hconv2). cbv zeta.
    assert (Hor : bool_decide (Limit opts2 = 0)
                  || negb (shouldListFromStorage (URL_Query r2) opts2) = true).
    { destruct Hreads as [Hc | Hl].
      - rewrite Hc. apply orb_true_r.
      - rewrite (bool_decide_eq_true_2 _ Hl). reflexivity. }
    rewrite Hor, andb_true_l. unfold bool_decide.
    destruct (decide_rel eq (list_countFn e (key ri)) 0) as [Hz|Hnz].
    - rewrite decide_True by assumption. reflexivity.
    - rewrite (decide_False (P := list_countFn e (key ri) = 0)) by assumption.
      simpl.
      destruct (negb (shouldListFromStorage (URL_Query r2) opts2)) eqn:Hc;
        [reflexivity|].
      rewrite orb_false_r in Hor. apply bool_decide_eq_true_1 in Hor.
      rewrite (decide_True (P := Limit opts2 = 0)) by assumption. reflexivity. }
  rewrite Hr2. case_decide as Hz.
  - apply seats_for_range.
  - destruct Hcount as [Hc | Hle]; [contradiction|].
    rewrite !seats_for_int64 by (unfold is_int64; lia).
    apply spec_seats_mono. assumption.
Qed.

End MoreProperties.

(** *** The paging gate and the limit in the serving decision *)

(** X8. With the [APIListChunking] gate off, a list goes to storage
    exactly when its resource version is empty or its match is Exact, and
    every list that goes to storage then also goes there under any other
    setting of the gate: switching paging on only moves lists from the
    cache to storage. *)
Theorem paging_gate_off (env1 env2 : Surroundings) (query : Values) (opts : ListOptions) :
  APIListChunking (Surroundings := env1) = false ->
  (shouldListFromStorage (env := env1) query opts = true
   <-> ResourceVersion opts = ""
       \/ ResourceVersionMatch opts = ResourceVersionMatchExact)
  /\ (shouldListFromStorage (env := env1) query opts = true ->
      shouldListFromStorage (env := env2) query opts = true).
Proof.
  intros Hoff.
  assert (Hiff : shouldListFromStorage (env := env1) query opts = true
                 <-> ResourceVersion opts = ""
                     \/ ResourceVersionMatch opts = ResourceVersionMatchExact).
  { rewrite shouldListFromStorage_spec. unfold spec_willServeFromStorage.
    rewrite Hoff. intuition discriminate. }
  split; [exact Hiff|].
  intros H1. apply Hiff in H1.
  apply shouldListFromStorage_spec. unfold spec_willServeFromStorage. tauto.
Qed.

(** X9. The limit changes where a list is served from only for a request
    with paging enabled, a resource version other than the empty one and
    "0", no continue token and a match other than Exact. *)
Theorem limit_changes_serving_only_if (env : Surroundings) (query : Values)
    (opts : ListOptions) (limit' : Z) :
  shouldListFromStorage query opts
  <> shouldListFromStorage query
       {| ResourceVersion := ResourceVersion opts;
          ResourceVersionMatch := ResourceVersionMatch opts;
          Limit := limit';
          Continue := Continue opts |} ->
  APIListChunking = true
  /\ ResourceVersion opts <> "" /\ ResourceVersion opts <> "0"
  /\ Continue opts = ""
  /\ ResourceVersionMatch opts <> ResourceVersionMatchExact
  /\ (Limit opts > 0 <-> ~ limit' > 0).
Proof.
  intros Hne.
  match type of Hne with ?s1 <> ?s2 =>
    assert (Hx : ~ (s1 = true <-> s2 = true))
      by (intros Hiff; apply Hne; destruct s1, s2; intuition congruence)
  end.
  rewrite !shouldListFromStorage_spec in Hx.
  unfold spec_willServeFromStorage in Hx. simpl in Hx.
  assert (Hpaging : APIListChunking = true).
  { destruct APIListChunking; [reflexivity|].
    exfalso. apply Hx. intuition congruence. }
  assert (Hrv : ResourceVersion opts <> "") by (intros E; apply Hx; tauto).
  assert (Hzero : ResourceVersion opts <> "0") by (intros E; apply Hx; tauto).
  assert (Hmatch : ResourceVersionMatch opts <> ResourceVersionMatchExact)
    by (intros E; apply Hx; tauto).
  assert (Hcont : Continue opts = "").
  { destruct (decide (Continue opts = "")) as [E|E]; [exact E|].
    exfalso. apply Hx. tauto. }
  repeat (split; [assumption|]).
  split.
  - intros Hl Hl'. apply Hx. tauto.
  - intros Hl'. destruct (decide (Limit opts > 0)) as [Hl|Hl]; [exact Hl|].
    exfalso. apply Hx. tauto.
Qed.

(** *** The further properties at the requests of width_test.go *)

(** X3 at 299 objects. *)
Lemma seats_for_brackets_witness :
  (- 100 < 299 /\ is_int64 299) /\ seats_for (env := test_env) 299 = 3.
Proof.
  assert (H64 : is_int64 299) by (unfold is_int64; lia).
  split; [split; [lia | exact H64]|].
  destruct (seats_for_brackets (env := test_env) 299 ltac:(lia) H64) as (_ & Hk & _).
  apply (Hk 3); lia.
Defined.

(** X1 at the test "request verb is create, watches registered". *)
Lemma mutating_estimate_formula_witness :
  let r := test_request (Some (foo_mutating "create")) [] in
  let e := test_mutating_estimator 299 in
  (Context r = Some (foo_mutating "create")
   /\ 0 <= watchCountGetterFunc_Get (mutating_countFn e) (foo_mutating "create")
   /\ is_int64 (watchCountGetterFunc_Get (mutating_countFn e) (foo_mutating "create")))
  /\ mutatingWidthEstimator_estimate (env := test_env) e r = ret {| Seats := 3 |}.
Proof.
  intros r e.
  assert (H64 : is_int64 299) by (unfold is_int64; lia).
  assert (Hpos : 0 <= watchCountGetterFunc_Get (mutating_countFn e)
                        (foo_mutating "create")) by (vm_compute; discriminate).
  split; [split; [reflexivity | split; [exact Hpos | exact H64]]|].
  rewrite (mutating_estimate_formula (env := test_env) e r (foo_mutating "create")
             eq_refl Hpos H64).
  reflexivity.
Defined.

(** X2 between 299 and 1999 watchers. *)
Lemma mutating_seats_monotone_witness :
  let r := test_request (Some (foo_mutating "update")) [] in
  Seats (result (mutatingWidthEstimator_estimate (env := test_env)
                   (test_mutating_estimator 299) r))
  <= Seats (result (mutatingWidthEstimator_estimate (env := test_env)
                      (test_mutating_estimator 1999) r)).
Proof.
  intros r.
  apply (mutating_seats_monotone (env := test_env) (test_mutating_estimator 299)
           (test_mutating_estimator 1999) r (foo_mutating "update") eq_refl).
  - vm_compute. discriminate.
  - vm_compute. discriminate.
  - split; vm_compute; [discriminate | reflexivity].
Defined.

(** X5 at the test "request verb is list, has limit", with the count
    known and unknown. *)
Lemma limited_storage_list_ignores_count_witness :
  let r := test_request (Some foo_list) [("limit", ["499"]); ("resourceVersion", ["1"])] in
  let e1 := {| list_countFn := countsFn (foo_counts 799) |} in
  let e2 := {| list_countFn := countsFn ∅ |} in
  listWidthEstimator_estimate (env := test_env) e1 r
  = listWidthEstimator_estimate (env := test_env) e2 r.
Proof.
  intros r e1 e2.
  apply (limited_storage_list_ignores_count (env := test_env) e1 e2 r foo_list
           {| ResourceVersion := "1"; ResourceVersionMatch := "";
              Limit := 499; Continue := "" |}).
  - reflexivity.
  - vm_compute. reflexivity.
  - vm_compute. reflexivity.
  - simpl. lia.
Defined.

(** X6 between the tests "resource version is zero" and "list from cache". *)
Lemma cached_list_ignores_options_witness :
  let r1 := test_request (Some foo_list) [("resourceVersion", ["0"])] in
  let r2 := test_request (Some foo_list) [("resourceVersion", ["0"]); ("limit", ["799"])] in
  let e := {| list_countFn := countsFn (foo_counts 1999) |} in
  listWidthEstimator_estimate (env := test_env) e r1
  = listWidthEstimator_estimate (env := test_env) e r2.
Proof.
  intros r1 r2 e.
  apply (cached_list_ignores_options (env := test_env) e r1 r2 foo_list
           {| ResourceVersion := "0"; ResourceVersionMatch := "";
              Limit := 0; Continue := "" |}
           {| ResourceVersion := "0"; ResourceVersionMatch := "";
              Limit := 799; Continue := "" |});
    vm_compute; reflexivity.
Defined.

(** X7 with a count written for another resource. *)
Lemma list_estimate_reads_own_key_witness :
  let r := test_request (Some foo_list) [("resourceVersion", ["0"])] in
  (Context r = Some foo_list /\ "pods" <> key foo_list)
  /\ listWidthEstimator_estimate (env := test_env)
       {| list_countFn := countsFn (<["pods" := 5]> (foo_counts 799)) |} r
     = listWidthEstimator_estimate (env := test_env)
         {| list_countFn := countsFn (foo_counts 799) |} r.
Proof.
  intros r.
  assert (Hk : "pods" <> key foo_list) by (vm_compute; discriminate).
  split; [split; [reflexivity | exact Hk]|].
  destruct (list_estimate_reads_own_key (env := test_env) r foo_list eq_refl)
    as [_ Hmap].
  apply Hmap. exact Hk.
Defined.

(** X8 between the surroundings without and with paging. *)
Lemma paging_gate_off_witness :
  let opts := {| ResourceVersion := ""; ResourceVersionMatch := "";
                 Limit := 499; Continue := "" |} in
  APIListChunking (Surroundings := no_paging_env) = false
  /\ shouldListFromStorage (env := no_paging_env) ∅ opts = true
  /\ shouldListFromStorage (env := test_env) ∅ opts = true.
Proof.
  intros opts.
  destruct (paging_gate_off no_paging_env test_env ∅ opts eq_refl) as [Hiff Hmono].
  assert (Hoff : shouldListFromStorage (env := no_paging_env) ∅ opts = true)
    by (apply Hiff; left; reflexivity).
  split; [reflexivity | split; [exact Hoff | exact (Hmono Hoff)]].
Defined.

(** X9 on the options of the test "has limit", against no limit. *)
Lemma limit_changes_serving_only_if_witness :
  let opts := {| ResourceVersion := "1"; ResourceVersionMatch := "";
                 Limit := 499; Continue := "" |} in
  let opts' := {| ResourceVersion := "1"; ResourceVersionMatch := "";
                  Limit := 0; Continue := "" |} in
  shouldListFromStorage (env := test_env) ∅ opts
  <> shouldListFromStorage (env := test_env) ∅ opts'
  /\ APIListChunking (Surroundings := test_env) = true
  /\ ResourceVersion opts <> "" /\ ResourceVersion opts <> "0".
Proof.
  intros opts opts'.
  assert (Hne : shouldListFromStorage (env := test_env) ∅ opts
                <> shouldListFromStorage (env := test_env) ∅ opts')
    by (vm_compute; discriminate).
  split; [exact Hne|].
  destruct (limit_changes_serving_only_if test_env ∅ opts 0 Hne)
    as (Hp & Hrv & Hz & _).
  split; [exact Hp | split; [exact Hrv | exact Hz]].
Defined.

(** X10 between the tests "has limit" and "resource version is zero". *)
Lemma limited_list_costs_no_more_witness :
  let r1 := test_request (Some foo_list) [("limit", ["499"]); ("resourceVersion", ["1"])] in
  let r2 := test_request (Some foo_list) [("resourceVersion", ["0"])] in
  let e := {| list_countFn := countsFn (foo_counts 799) |} in
  Seats (result (listWidthEstimator_estimate (env := test_env) e r1))
  <= Seats (result (listWidthEstimator_estimate (env := test_env) e r2)).
Proof.
  intros r1 r2 e.
  assert (Hcount : list_countFn e (key foo_list) = 799) by (vm_compute; reflexivity).
  apply (limited_list_costs_no_more (env := test_env) e r1 r2 foo_list
           {| ResourceVersion := "1"; ResourceVersionMatch := "";
              Limit := 499; Continue := "" |}
           {| ResourceVersion := "0"; ResourceVersionMatch := "";
              Limit := 0; Continue := "" |}).
  - reflexivity.
  - reflexivity.
  - vm_compute. reflexivity.
  - vm_compute. reflexivity.
  - vm_compute. reflexivity.
  - simpl. lia.
  - left. vm_compute. reflexivity.
  - right. rewrite Hcount. simpl. lia.
  - rewrite Hcount. unfold is_int64. lia.
Defined.

